(** * analyze_data.py: a directory-of-spreadsheets inspector

    The script lists the entries of the directory [data], and for every
    entry prints a header block, opens the entry as an Excel workbook, loads
    the first sheet into a pandas frame and prints its size, its columns, a
    preview of its first five rows and its column types.  Any exception raised
    while a file is processed is caught by the [try]/[except Exception] of the
    loop body and reported on one line.

    The embedding follows the script statement by statement.  The effects of
    the script (lines written by [print], calls into [os] and [pandas]) are
    collected in a trace by a small writer-and-exception monad [Py]; what the
    file system and pandas answer is a [World], taken as a parameter. *)

From Stdlib Require Import String Ascii List Arith Lia ZArith.
From Stdlib Require Import Decimal DecimalString DecimalNat.
Import ListNotations.
Open Scope string_scope.

(** ** Python built-ins used by the script *)

Module Python.

(** The character written by the escape [\n]. *)
Definition newline : string := String "010"%char EmptyString.

(** [s * n] on strings. *)
Fixpoint str_mul (s : string) (n : nat) : string :=
  match n with
  | 0 => EmptyString
  | S k => s ++ str_mul s k
  end.

(** [str(n)], also what an f-string field writes for a non-negative
    [int]: the decimal digits of [n]. *)
Definition str_int (n : nat) : string :=
  NilEmpty.string_of_uint (Nat.to_uint n).

(** [sep.join(parts)]. *)
Definition str_join (sep : string) (parts : list string) : string :=
  String.concat sep parts.

(** [repr] of a list of strings, given [repr] on strings: the items
    between brackets, separated by a comma and a space. *)
Definition repr_list (repr : string -> string) (l : list string) : string :=
  "[" ++ str_join ", " (map repr l) ++ "]".

(** [s.startswith(t)]. *)
Fixpoint startswith (s t : string) {struct t} : bool :=
  match t with
  | EmptyString => true
  | String c t' =>
      match s with
      | EmptyString => false
      | String d s' => Ascii.eqb c d && startswith s' t'
      end
  end.

(** [s.endswith(t)]. *)
Definition endswith (s t : string) : bool :=
  (String.length t <=? String.length s)%nat &&
  String.eqb (substring (String.length s - String.length t) (String.length t) s) t.

(** [os.path.join(a, b)] of [posixpath]: an absolute [b] replaces [a];
    otherwise [b] is appended, after a separator unless [a] is empty or
    already ends with one. *)
Definition os_path_join (a b : string) : string :=
  if startswith b "/" then b
  else if (String.eqb a EmptyString || endswith a "/")%bool then a ++ b
  else a ++ "/" ++ b.

(** [enumerate(l, start)]. *)
Fixpoint enumerate_from {A : Type} (start : nat) (l : list A) : list (nat * A) :=
  match l with
  | [] => []
  | x :: l' => (start, x) :: enumerate_from (S start) l'
  end.

(** [enumerate(l)]. *)
Definition enumerate {A : Type} (l : list A) : list (nat * A) :=
  enumerate_from 0 l.

(** An exception instance caught by [except Exception as e]; the script
    observes nothing of it but [str(e)]. *)
Record Exception : Type := Exc { str_exc : string }.

(** What the script does to the outside, in program order: a line handed to
    [print] (which writes it and a newline to standard output), and the calls
    that reach the file system. *)
Inductive event : Type :=
| Out (line : string)
| CallListdir (path : string)
| CallExcelFile (path : string)
| CallReadExcel (path : string) (sheet_name : nat).

(** A computation: the events it performed, and either the exception it
    raised or its value. *)
Definition Py (A : Type) : Type := (list event * (Exception + A))%type.

Definition ret {A : Type} (a : A) : Py A := ([], inr a).

Definition bind {A B : Type} (m : Py A) (k : A -> Py B) : Py B :=
  match m with
  | (t, inl e) => (t, inl e)
  | (t, inr a) => let (t', r) := k a in ((t ++ t')%list, r)
  end.

(** [try: m except Exception as e: handler e]. *)
Definition try_except {A : Type} (m : Py A) (handler : Exception -> Py A) : Py A :=
  match m with
  | (t, inl e) => let (t', r) := handler e in ((t ++ t')%list, r)
  | (t, inr a) => (t, inr a)
  end.

(** [print(s)]. *)
Definition print (s : string) : Py unit := ([Out s], inr tt).

(** A call whose answer [r] comes from outside, recorded as event [ev]. *)
Definition call {A : Type} (ev : event) (r : Exception + A) : Py A := ([ev], r).

(** An expression that may raise and leaves no other mark. *)
Definition eval {A : Type} (r : Exception + A) : Py A := ([], r).

(** [for x in l: body x]. *)
Fixpoint for_each {A : Type} (l : list A) (body : A -> Py unit) : Py unit :=
  match l with
  | [] => ret tt
  | x :: l' => bind (body x) (fun _ => for_each l' body)
  end.

(** The lines on standard output, one per [print]. *)
Definition stdout_lines (t : list event) : list string :=
  flat_map (fun ev => match ev with Out s => [s] | _ => [] end) t.

(** The text on standard output. *)
Definition stdout_text (t : list event) : string :=
  String.concat EmptyString (map (fun s => s ++ newline) (stdout_lines t)).

(** The exit status of the interpreter: 0 when the module body ran to its
    end, 1 when an exception reached the top level. *)
Definition exit_code {A : Type} (r : Exception + A) : Z :=
  match r with
  | inr _ => 0%Z
  | inl _ => 1%Z
  end.

End Python.

Import Python.

Declare Scope py_scope.
Delimit Scope py_scope with py.
Notation "x <- m ;; k" := (bind m (fun x => k))
  (at level 61, m at next level, right associativity) : py_scope.
Notation "m ;; k" := (bind m (fun _ => k))
  (at level 61, right associativity) : py_scope.
Open Scope py_scope.

(** ** pandas frames *)

Section Frames.

Context {Label Dtype Cell : Type}.

(** A frame as [read_excel] returns it: the column axis, every column with
    its label and its inferred type, and the data rows under the default
    range index.  The header row of the sheet is the column axis, not a
    row. *)
Record DataFrame : Type := mkDataFrame {
  dtypes : list (Label * Dtype);
  rows : list (list Cell)
}.

(** [df.columns]. *)
Definition columns (df : DataFrame) : list Label := map fst (dtypes df).

(** [len(df)]. *)
Definition len (df : DataFrame) : nat := length (rows df).

(** [df.head(n)], that is [df.iloc[:n]]. *)
Definition head (n : nat) (df : DataFrame) : DataFrame :=
  {| dtypes := dtypes df; rows := firstn n (rows df) |}.

End Frames.

Arguments DataFrame : clear implicits.

(** ** The script *)

Section Script.

Context {Label Dtype Cell Workbook : Type}.

(** What pandas and the f-strings write for the values the script prints:
    [f"{col}"] for a column label, [repr] of a sheet name (inside the [repr]
    of the list [xl.sheet_names]), [DataFrame.to_string()] and
    [Series.to_string()] of the series [df.dtypes]. *)
Variable format_label : Label -> string.
Variable repr_str : string -> string.
Variable DataFrame_to_string : DataFrame Label Dtype Cell -> string.
Variable Series_to_string : list (Label * Dtype) -> string.

(** What the directory and the files in it answer during one run. *)
Record World : Type := mkWorld {
  os_listdir : string -> Exception + list string;
  pd_ExcelFile : string -> Exception + Workbook;
  sheet_names : Workbook -> Exception + list string;
  pd_read_excel : string -> nat -> Exception + DataFrame Label Dtype Cell
}.

Variable w : World.

(** [data_dir = 'data'] *)
Definition data_dir : string := "data".

(** ['='*60] *)
Definition banner : string := str_mul "=" 60.

(** [f"\n{'='*60}"], and ["\n" + "="*60] after the loop. *)
Definition top_banner : string := newline ++ banner.

(** [f"📄 FILE {i+1}: {f}"] *)
Definition file_line (i : nat) (f : string) : string :=
  "📄 FILE " ++ str_int (i + 1) ++ ": " ++ f.

(** [f"📊 Sheets: {xl.sheet_names}"] *)
Definition sheets_line (names : list string) : string :=
  "📊 Sheets: " ++ repr_list repr_str names.

(** [f"📏 Size: {len(df)} rows x {len(df.columns)} columns"] *)
Definition size_line (nrows ncols : nat) : string :=
  "📏 Size: " ++ str_int nrows ++ " rows x " ++ str_int ncols ++ " columns".

(** [f"\n📋 Columns:"] *)
Definition columns_title : string := newline ++ "📋 Columns:".

(** [f"   - {col}"] *)
Definition column_line (col : Label) : string := "   - " ++ format_label col.

(** [f"\n📝 First 5 rows:"] *)
Definition preview_title : string := newline ++ "📝 First 5 rows:".

(** [f"\n📈 Data Types:"] *)
Definition types_title : string := newline ++ "📈 Data Types:".

(** [f"❌ Error: {e}"] *)
Definition error_line (e : Exception) : string := "❌ Error: " ++ str_exc e.

(** The three [print]s that open the block of entry [f] at position [i]. *)
Definition header (i : nat) (f : string) : Py unit :=
  print top_banner ;;
  print (file_line i f) ;;
  print banner.

(** The statements of the [try] suite that follow the load of [df]. *)
Definition report (df : DataFrame Label Dtype Cell) : Py unit :=
  print (size_line (len df) (length (columns df))) ;;
  print columns_title ;;
  for_each (columns df) (fun col => print (column_line col)) ;;
  print preview_title ;;
  print (DataFrame_to_string (head 5 df)) ;;
  print types_title ;;
  print (Series_to_string (dtypes df)).

(** The [try] suite. *)
Definition inspect (f : string) : Py unit :=
  let filepath := os_path_join data_dir f in
  xl <- call (CallExcelFile filepath) (pd_ExcelFile w filepath) ;;
  names <- eval (sheet_names w xl) ;;
  print (sheets_line names) ;;
  df <- call (CallReadExcel filepath 0) (pd_read_excel w filepath 0) ;;
  report df.

(** The [except Exception as e] suite. *)
Definition handler (e : Exception) : Py unit :=
  print (error_line e).

(** The body of the loop, for the pair [(i, f)] of [enumerate(files)]. *)
Definition body (i : nat) (f : string) : Py unit :=
  header i f ;;
  try_except (inspect f) handler.

(** The two [print]s after the loop. *)
Definition closing : Py unit :=
  print top_banner ;;
  print "✅ Analysis Complete!".

(** The module, top to bottom. *)
Definition script : Py unit :=
  files <- call (CallListdir data_dir) (os_listdir w data_dir) ;;
  for_each (enumerate files) (fun '(i, f) => body i f) ;;
  closing.

(** *** Vocabulary of the properties *)

(** The events of the block of entry [f] at position [i]. *)
Definition block (i : nat) (f : string) : list event := fst (body i f).

(** The blocks of the entries [l], numbered from [start]. *)
Definition blocks_from (start : nat) (l : list string) : list event :=
  flat_map (fun '(i, f) => block i f) (enumerate_from start l).

(** The events of [header], [report] and [closing]. *)
Definition header_events (i : nat) (f : string) : list event :=
  [Out top_banner; Out (file_line i f); Out banner].

Definition report_events (df : DataFrame Label Dtype Cell) : list event :=
  Out (size_line (len df) (length (columns df)))
  :: Out columns_title
  :: (map (fun col => Out (column_line col)) (columns df)
      ++ [Out preview_title; Out (DataFrame_to_string (head 5 df));
          Out types_title; Out (Series_to_string (dtypes df))])%list.

Definition closing_events : list event :=
  [Out top_banner; Out "✅ Analysis Complete!"].

(** Processing entry [f] raises [e]: at the opening of the workbook, at the
    listing of its sheet names, or at the load of its first sheet. *)
Inductive raises (f : string) (e : Exception) : Prop :=
| raises_open :
    pd_ExcelFile w (os_path_join data_dir f) = inl e ->
    raises f e
| raises_sheet_names (xl : Workbook) :
    pd_ExcelFile w (os_path_join data_dir f) = inr xl ->
    sheet_names w xl = inl e ->
    raises f e
| raises_load (xl : Workbook) (names : list string) :
    pd_ExcelFile w (os_path_join data_dir f) = inr xl ->
    sheet_names w xl = inr names ->
    pd_read_excel w (os_path_join data_dir f) 0 = inl e ->
    raises f e.

(** Entry [f] is opened and loaded: its sheets are [names] and its first
    sheet loads as [df]. *)
Definition loads (f : string) (names : list string)
    (df : DataFrame Label Dtype Cell) : Prop :=
  exists xl : Workbook,
    pd_ExcelFile w (os_path_join data_dir f) = inr xl /\
    sheet_names w xl = inr names /\
    pd_read_excel w (os_path_join data_dir f) 0 = inr df.

End Script.

(** Kinds of printed lines, told by their fixed first characters. *)
Definition is_error_line (s : string) : bool := startswith s "❌ Error: ".
Definition is_size_line (s : string) : bool := startswith s "📏 Size: ".
Definition is_columns_title (s : string) : bool := String.eqb s (newline ++ "📋 Columns:").
Definition is_column_line (s : string) : bool := startswith s "   - ".
Definition is_preview_title (s : string) : bool := String.eqb s (newline ++ "📝 First 5 rows:").
Definition is_types_title (s : string) : bool := String.eqb s (newline ++ "📈 Data Types:").

(** A line of the report of a loaded frame. *)
Definition is_report_line (s : string) : bool :=
  is_size_line s || is_columns_title s || is_column_line s
  || is_preview_title s || is_types_title s.

(** Kinds of events. *)
Definition is_open_call (ev : event) : bool :=
  match ev with CallExcelFile _ => true | _ => false end.
Definition is_load_call (ev : event) : bool :=
  match ev with CallReadExcel _ _ => true | _ => false end.
Definition is_listdir_call (ev : event) : bool :=
  match ev with CallListdir _ => true | _ => false end.

(** A string of decimal digits. *)
Definition is_digit (c : ascii) : bool :=
  match c with
  | "0" | "1" | "2" | "3" | "4" | "5" | "6" | "7" | "8" | "9" => true
  | _ => false
  end%char.

Fixpoint all_digits (s : string) : bool :=
  match s with
  | EmptyString => true
  | String c s' => is_digit c && all_digits s'
  end.


(** The workbook of entry [f] opens and lists its sheets: the statements of
    the [try] suite up to the sheet-name line run without raising, so the
    script goes on to [pd.read_excel]. *)
Definition reaches_load {Label Dtype Cell Workbook : Type}
    (w : @World Label Dtype Cell Workbook) (f : string) : bool :=
  match pd_ExcelFile w (os_path_join data_dir f) with
  | inl _ => false
  | inr xl =>
      match sheet_names w xl with
      | inl _ => false
      | inr _ => true
      end
  end.

(** Entry [f] answers the same way in two file systems. *)
Definition same_entry {Label Dtype Cell Workbook : Type}
    (w1 w2 : @World Label Dtype Cell Workbook) (f : string) : Prop :=
  pd_ExcelFile w1 (os_path_join data_dir f) = pd_ExcelFile w2 (os_path_join data_dir f)
  /\ (forall xl, pd_ExcelFile w1 (os_path_join data_dir f) = inr xl ->
                sheet_names w1 xl = sheet_names w2 xl)
  /\ pd_read_excel w1 (os_path_join data_dir f) 0
     = pd_read_excel w2 (os_path_join data_dir f) 0.

(** ** Sample worlds

    A directory [data] with a loadable workbook, a text file, a workbook
    whose sheet list cannot be read and a workbook whose first sheet cannot
    be loaded; renderers that stand for those of pandas. *)

Module Sample.

Definition frame : Type := DataFrame string string string.

Definition format_label (col : string) : string := col.

Definition repr_str (s : string) : string := "'" ++ s ++ "'".

Definition DataFrame_to_string (df : frame) : string :=
  str_join newline
    (str_join "  " (columns df) :: map (str_join "  ") (rows df)).

Definition Series_to_string (s : list (string * string)) : string :=
  str_join newline (map (fun '(col, ty) => col ++ "    " ++ ty) s).

(** Seven data rows under the header [id, name]. *)
Definition ledger : frame :=
  {| dtypes := [("id", "int64"); ("name", "object")];
     rows := [["1"; "a"]; ["2"; "b"]; ["3"; "c"]; ["4"; "d"];
              ["5"; "e"]; ["6"; "f"]; ["7"; "g"]] |}.

(** Two data rows under the header [k]. *)
Definition short : frame :=
  {| dtypes := [("k", "float64")]; rows := [["0.5"]; ["1.5"]] |}.

(** An open workbook: its sheet names, when they can be listed. *)
Definition workbook : Type := option (list string).

Definition listing : list string :=
  ["ledger.xlsx"; "notes.txt"; "nosheets.xlsx"; "locked.xlsx"; "short.xls"].

Definition world : World :=
  {| os_listdir := fun path =>
       if String.eqb path "data" then inr listing
       else inl (Exc "No such file or directory");
     pd_ExcelFile := fun path =>
       if String.eqb path "data/ledger.xlsx" then inr (Some ["Sheet1"; "Sheet2"])
       else if String.eqb path "data/nosheets.xlsx" then inr None
       else if String.eqb path "data/locked.xlsx" then inr (Some ["Sheet1"])
       else if String.eqb path "data/short.xls" then inr (Some ["Data"])
       else inl (Exc "Excel file format cannot be determined");
     sheet_names := fun xl : workbook =>
       match xl with
       | Some names => inr names
       | None => inl (Exc "workbook has no sheet list")
       end;
     pd_read_excel := fun path _ =>
       if String.eqb path "data/ledger.xlsx" then inr ledger
       else if String.eqb path "data/short.xls" then inr short
       else inl (Exc "Worksheet index 0 is invalid") |}.


(** An empty directory [data]. *)
Definition empty_world : World (Label := string) (Dtype := string)
    (Cell := string) (Workbook := workbook) :=
  {| os_listdir := fun _ => inr [];
     pd_ExcelFile := fun _ => inl (Exc "unreachable");
     sheet_names := fun _ => inl (Exc "unreachable");
     pd_read_excel := fun _ _ => inl (Exc "unreachable") |}.


(** A directory [data] where nothing is a workbook. *)
Definition junk_world : World (Label := string) (Dtype := string)
    (Cell := string) (Workbook := workbook) :=
  {| os_listdir := fun _ => inr ["notes.txt"; "archive"; "photo.png"];
     pd_ExcelFile := fun path =>
       if String.eqb path "data/archive" then inl (Exc "[Errno 21] Is a directory: 'data/archive'")
       else inl (Exc "Excel file format cannot be determined");
     sheet_names := fun _ => inl (Exc "unreachable");
     pd_read_excel := fun _ _ => inl (Exc "unreachable") |}.

(** A header row [date, amount] and no data row under it. *)
Definition blank : frame :=
  {| dtypes := [("date", "object"); ("amount", "object")]; rows := [] |}.

(** A directory [data] with one workbook, whose first sheet is [blank]. *)
Definition blank_world : World (Label := string) (Dtype := string)
    (Cell := string) (Workbook := workbook) :=
  {| os_listdir := fun _ => inr ["blank.xlsx"];
     pd_ExcelFile := fun _ => inr (Some ["Sheet1"]);
     sheet_names := sheet_names world;
     pd_read_excel := fun _ _ => inr blank |}.

(** The directory of [world] before its last three entries were added. *)
Definition early_world : World (Label := string) (Dtype := string)
    (Cell := string) (Workbook := workbook) :=
  {| os_listdir := fun _ => inr ["ledger.xlsx"; "notes.txt"];
     pd_ExcelFile := pd_ExcelFile world;
     sheet_names := sheet_names world;
     pd_read_excel := pd_read_excel world |}.

(** The script under the sample renderers. *)
Definition run (w : World (Workbook := workbook)) : Py unit :=
  script format_label repr_str DataFrame_to_string Series_to_string w.

(** The block of entry [f] at position [i] under the sample renderers. *)
Definition block (w : World (Workbook := workbook)) (i : nat) (f : string) : list event :=
  block format_label repr_str DataFrame_to_string Series_to_string w i f.

End Sample.

(** ** Properties of the script *)

Set Warnings "-notation-for-abbreviation".

Create HintDb py.
#[local] Hint Unfold bind ret print call eval try_except : py.

(** Runs the monad on a goal whose calls have known answers. *)
Ltac py_run := autounfold with py; cbn [fst snd app].

Section Trace.

(** [print] in a loop writes one line per element, in order. *)
Lemma for_each_print {A : Type} (g : A -> string) (l : list A) :
  for_each l (fun x => print (g x)) = (map (fun x => Out (g x)) l, inr tt).
Proof.
  induction l as [|x l IH]; cbn [for_each map]; [reflexivity|].
  rewrite IH. reflexivity.
Qed.

Lemma stdout_lines_app (t1 t2 : list event) :
  stdout_lines (t1 ++ t2) = (stdout_lines t1 ++ stdout_lines t2)%list.
Proof. unfold stdout_lines. apply flat_map_app. Qed.

Lemma stdout_lines_outs {A : Type} (g : A -> string) (l : list A) :
  stdout_lines (map (fun x => Out (g x)) l) = map g l.
Proof.
  induction l as [|x l IH]; [reflexivity|].
  cbn. f_equal. exact IH.
Qed.

Lemma filter_outs {A : Type} (p : event -> bool) (g : A -> string) (l : list A) :
  (forall s, p (Out s) = false) ->
  filter p (map (fun x => Out (g x)) l) = [].
Proof.
  intros Hp. induction l as [|x l IH]; [reflexivity|].
  cbn. rewrite Hp. exact IH.
Qed.

Lemma enumerate_from_app {A : Type} (n : nat) (l1 l2 : list A) :
  enumerate_from n (l1 ++ l2)
  = (enumerate_from n l1 ++ enumerate_from (n + length l1) l2)%list.
Proof.
  revert n. induction l1 as [|x l1 IH]; intros n; cbn.
  - now rewrite Nat.add_0_r.
  - rewrite IH. now rewrite Nat.add_succ_r.
Qed.

Lemma enumerate_from_snd {A : Type} (n : nat) (l : list A) :
  map snd (enumerate_from n l) = l.
Proof.
  revert n. induction l as [|x l IH]; intros n; cbn; [reflexivity|].
  now rewrite IH.
Qed.

Lemma enumerate_from_nth {A : Type} (n k : nat) (l : list A) (x : A) :
  nth_error l k = Some x ->
  nth_error (enumerate_from n l) k = Some (n + k, x).
Proof.
  revert n k. induction l as [|y l IH]; intros n [|k] H; cbn in *; try discriminate.
  - injection H as ->. now rewrite Nat.add_0_r.
  - rewrite (IH (S n) k H). f_equal. f_equal. lia.
Qed.

Lemma stdout_lines_out (s : string) (t : list event) :
  stdout_lines (Out s :: t) = s :: stdout_lines t.
Proof. reflexivity. Qed.

Lemma str_append_nil_r (s : string) : s ++ EmptyString = s.
Proof. induction s as [|c s IH]; cbn; [reflexivity | now rewrite IH]. Qed.

Lemma str_append_assoc (s t u : string) : (s ++ t) ++ u = s ++ t ++ u.
Proof. induction s as [|c s IH]; cbn; [reflexivity | now rewrite IH]. Qed.

Lemma concat_empty_cons (a : string) (l : list string) :
  String.concat EmptyString (a :: l) = a ++ String.concat EmptyString l.
Proof. destruct l; cbn; [now rewrite str_append_nil_r | reflexivity]. Qed.

Lemma concat_empty_app (l1 l2 : list string) :
  String.concat EmptyString (l1 ++ l2)
  = String.concat EmptyString l1 ++ String.concat EmptyString l2.
Proof.
  induction l1 as [|a l1 IH]; [reflexivity|].
  change ((a :: l1) ++ l2)%list with (a :: (l1 ++ l2))%list.
  now rewrite !concat_empty_cons, IH, str_append_assoc.
Qed.

(** What is printed is appended to what was printed before. *)
Lemma stdout_text_app (t1 t2 : list event) :
  stdout_text (t1 ++ t2) = stdout_text t1 ++ stdout_text t2.
Proof.
  unfold stdout_text. now rewrite stdout_lines_app, map_app, concat_empty_app.
Qed.

(** *** Decimal numerals *)

Lemma str_int_inj (n m : nat) : str_int n = str_int m -> n = m.
Proof.
  unfold str_int. intros H.
  assert (E : Some (Nat.to_uint n) = Some (Nat.to_uint m))
    by now rewrite <- !NilEmpty.usu, H.
  injection E as E.
  now rewrite <- (Unsigned.of_to n), <- (Unsigned.of_to m), E.
Qed.

Lemma string_of_uint_digits (d : uint) :
  all_digits (NilEmpty.string_of_uint d) = true.
Proof. induction d; cbn; auto. Qed.

Lemma str_int_digits (n : nat) : all_digits (str_int n) = true.
Proof. apply string_of_uint_digits. Qed.

(** Two numerals followed by the same non-digit end at the same place. *)
Lemma digits_split (c : ascii) (s1 s2 t1 t2 : string) :
  is_digit c = false ->
  all_digits s1 = true ->
  all_digits s2 = true ->
  s1 ++ String c t1 = s2 ++ String c t2 ->
  s1 = s2 /\ t1 = t2.
Proof.
  intros Hc. revert s2.
  induction s1 as [|a s1 IH]; intros [|b s2] H1 H2 H; cbn in *.
  - now injection H.
  - injection H as <- _. apply andb_prop in H2. destruct H2; congruence.
  - injection H as -> _. apply andb_prop in H1. destruct H1; congruence.
  - injection H as -> H. apply andb_prop in H1, H2.
    destruct (IH s2) as [-> ->]; tauto.
Qed.


End Trace.

Section Theory.

Context {Label Dtype Cell Workbook : Type}.

Variable format_label : Label -> string.
Variable repr_str : string -> string.
Variable DataFrame_to_string : DataFrame Label Dtype Cell -> string.
Variable Series_to_string : list (Label * Dtype) -> string.

Implicit Types (w : @World Label Dtype Cell Workbook).
Implicit Types (df : DataFrame Label Dtype Cell).
Implicit Types (f : string) (e : Exception) (i k : nat).

Local Notation run := (script format_label repr_str DataFrame_to_string Series_to_string).
Local Notation body' := (body format_label repr_str DataFrame_to_string Series_to_string).
Local Notation inspect' := (inspect format_label repr_str DataFrame_to_string Series_to_string).
Local Notation report' := (report format_label DataFrame_to_string Series_to_string).
Local Notation block' := (block format_label repr_str DataFrame_to_string Series_to_string).
Local Notation blocks' := (blocks_from format_label repr_str DataFrame_to_string Series_to_string).
Local Notation report_events' := (report_events format_label DataFrame_to_string Series_to_string).
Local Notation sheets_line' := (sheets_line repr_str).
Local Notation column_line' := (column_line format_label).
Local Notation path f := (os_path_join data_dir f).

(** *** The events of each part of the script *)

Lemma header_run i f : header i f = (header_events i f, inr tt).
Proof. reflexivity. Qed.

Lemma report_run df : report' df = (report_events' df, inr tt).
Proof.
  unfold report, report_events.
  rewrite (for_each_print column_line'). reflexivity.
Qed.

Lemma closing_run : closing = (closing_events, inr tt).
Proof. reflexivity. Qed.

Lemma inspect_open_raises w f e :
  pd_ExcelFile w (path f) = inl e ->
  inspect' w f = ([CallExcelFile (path f)], inl e).
Proof. intros H. unfold inspect. rewrite H. reflexivity. Qed.

Lemma inspect_sheet_names_raises w f (xl : Workbook) e :
  pd_ExcelFile w (path f) = inr xl ->
  sheet_names w xl = inl e ->
  inspect' w f = ([CallExcelFile (path f)], inl e).
Proof. intros H1 H2. unfold inspect. rewrite H1. py_run. rewrite H2. reflexivity. Qed.

Lemma inspect_load_raises w f (xl : Workbook) names e :
  pd_ExcelFile w (path f) = inr xl ->
  sheet_names w xl = inr names ->
  pd_read_excel w (path f) 0 = inl e ->
  inspect' w f
  = ([CallExcelFile (path f); Out (sheets_line' names); CallReadExcel (path f) 0],
     inl e).
Proof.
  intros H1 H2 H3. unfold inspect. rewrite H1. py_run. rewrite H2. py_run.
  rewrite H3. reflexivity.
Qed.

Lemma inspect_loads w f names df :
  loads w f names df ->
  inspect' w f
  = ([CallExcelFile (path f); Out (sheets_line' names); CallReadExcel (path f) 0]
       ++ report_events' df, inr tt)%list.
Proof.
  intros (xl & H1 & H2 & H3). unfold inspect. rewrite H1. py_run. rewrite H2.
  py_run. rewrite H3. rewrite report_run. reflexivity.
Qed.

(** The loop body never raises: what the [try] suite raises, the handler
    turns into one printed line. *)
Lemma body_returns w i f : snd (body' w i f) = inr tt.
Proof.
  unfold body. rewrite header_run. unfold bind at 1.
  destruct (try_except _ _) as [t r] eqn:E. cbn [snd].
  unfold try_except in E.
  destruct (inspect' w f) as [t0 [e0|[]]]; cbn in E; now inversion E.
Qed.

Lemma body_run w i f : body' w i f = (block' w i f, inr tt).
Proof.
  unfold block. rewrite <- (body_returns w i f). now destruct (body' w i f).
Qed.

Lemma block_eq w i f :
  block' w i f
  = (header_events i f ++ fst (try_except (inspect' w f) handler))%list.
Proof.
  unfold block, body. rewrite header_run. unfold bind at 1.
  now destruct (try_except _ _).
Qed.

(** The block of an entry whose processing raises. *)
Lemma block_of_raises w i f e :
  raises w f e ->
  block' w i f
  = (header_events i f ++ [CallExcelFile (path f); Out (error_line e)])%list
  \/ exists names,
      block' w i f
      = (header_events i f
         ++ [CallExcelFile (path f); Out (sheets_line' names);
             CallReadExcel (path f) 0; Out (error_line e)])%list.
Proof.
  intros [H1 | xl H1 H2 | xl names H1 H2 H3]; rewrite block_eq.
  - left. now rewrite (inspect_open_raises _ _ _ H1).
  - left. now rewrite (inspect_sheet_names_raises _ _ _ _ H1 H2).
  - right. exists names. now rewrite (inspect_load_raises _ _ _ _ _ H1 H2 H3).
Qed.

(** The block of an entry that is opened and loaded. *)
Lemma block_of_loads w i f names df :
  loads w f names df ->
  block' w i f
  = (header_events i f
     ++ [CallExcelFile (path f); Out (sheets_line' names); CallReadExcel (path f) 0]
     ++ report_events' df)%list.
Proof.
  intros H. rewrite block_eq. now rewrite (inspect_loads _ _ _ _ H).
Qed.

(** Every block opens with the header and the attempt to open the entry. *)
Lemma block_starts w i f :
  exists rest,
    block' w i f = (header_events i f ++ CallExcelFile (path f) :: rest)%list.
Proof.
  rewrite block_eq. unfold inspect.
  destruct (pd_ExcelFile w (path f)) as [e|xl] eqn:H1.
  - now exists [Out (error_line e)].
  - py_run. destruct (sheet_names w xl) as [e|names]; py_run.
    + now exists [Out (error_line e)].
    + destruct (pd_read_excel w (path f) 0) as [e|df]; py_run.
      * eexists. reflexivity.
      * rewrite report_run. eexists. reflexivity.
Qed.

(** *** The events of the loop and of the run *)

Lemma loop_run w n (l : list string) :
  for_each (enumerate_from n l) (fun '(i, f) => body' w i f)
  = (blocks' w n l, inr tt).
Proof.
  revert n. induction l as [|f l IH]; intros n; [reflexivity|].
  cbn [enumerate_from for_each]. rewrite body_run, IH. reflexivity.
Qed.

Lemma script_run w (files : list string) :
  os_listdir w data_dir = inr files ->
  run w = (CallListdir data_dir :: blocks' w 0 files ++ closing_events, inr tt)%list.
Proof.
  intros H. unfold script, enumerate. rewrite H, closing_run.
  py_run. rewrite loop_run. reflexivity.
Qed.

Lemma script_fatal w e :
  os_listdir w data_dir = inl e ->
  run w = ([CallListdir data_dir], inl e).
Proof. intros H. unfold script. rewrite H. reflexivity. Qed.

Lemma blocks_from_cons w n f (l : list string) :
  blocks' w n (f :: l) = (block' w n f ++ blocks' w (S n) l)%list.
Proof. reflexivity. Qed.

Lemma blocks_from_app w n (l1 l2 : list string) :
  blocks' w n (l1 ++ l2)
  = (blocks' w n l1 ++ blocks' w (n + length l1) l2)%list.
Proof.
  unfold blocks_from. rewrite enumerate_from_app. apply flat_map_app.
Qed.

(** The run around the entry at position [length pre]. *)
Lemma script_run_split w (pre post : list string) f :
  os_listdir w data_dir = inr (pre ++ f :: post)%list ->
  run w
  = (CallListdir data_dir
       :: blocks' w 0 pre ++ block' w (length pre) f
       ++ blocks' w (S (length pre)) post ++ closing_events, inr tt)%list.
Proof.
  intros H. rewrite (script_run _ _ H), blocks_from_app, blocks_from_cons.
  cbn [Nat.add]. now rewrite <- !app_assoc.
Qed.

(** *** Kinds of lines *)

Lemma error_line_kind e :
  is_error_line (error_line e) = true /\ is_report_line (error_line e) = false.
Proof. split; reflexivity. Qed.

Lemma file_line_kind i f :
  is_error_line (file_line i f) = false /\ is_report_line (file_line i f) = false.
Proof. split; reflexivity. Qed.

Lemma sheets_line_kind (names : list string) :
  is_error_line (sheets_line' names) = false
  /\ is_report_line (sheets_line' names) = false.
Proof. split; reflexivity. Qed.

Lemma banner_kind :
  is_error_line banner = false /\ is_report_line banner = false
  /\ is_error_line top_banner = false /\ is_report_line top_banner = false.
Proof. repeat split; reflexivity. Qed.

(** *** Calls made by a block *)

Lemma report_events_no_call (p : event -> bool) df :
  (forall s, p (Out s) = false) ->
  filter p (report_events' df) = [].
Proof.
  intros Hp. unfold report_events. cbn [filter]. rewrite !Hp.
  rewrite filter_app, filter_outs by exact Hp. cbn. now rewrite !Hp.
Qed.

(** Every block attempts to open its entry once, whatever comes of it. *)
Lemma block_open_calls w i f :
  filter is_open_call (block' w i f) = [CallExcelFile (path f)].
Proof.
  rewrite block_eq. unfold inspect.
  destruct (pd_ExcelFile w (path f)) as [e|xl]; [reflexivity|].
  py_run. destruct (sheet_names w xl) as [e|names]; py_run; [reflexivity|].
  destruct (pd_read_excel w (path f) 0) as [e|df]; py_run; [reflexivity|].
  rewrite report_run. cbn [fst].
  rewrite !filter_app, report_events_no_call by reflexivity. reflexivity.
Qed.

Lemma blocks_open_calls w n (l : list string) :
  filter is_open_call (blocks' w n l) = map (fun f => CallExcelFile (path f)) l.
Proof.
  revert n. induction l as [|f l IH]; intros n; [reflexivity|].
  rewrite blocks_from_cons, filter_app, block_open_calls, IH. reflexivity.
Qed.

(** *** Two runs, evaluated *)

Example run_empty_text :
  stdout_text (fst (Sample.run Sample.empty_world))
  = newline ++ banner ++ newline ++ "✅ Analysis Complete!" ++ newline.
Proof. reflexivity. Qed.

Example run_sample_opens :
  filter is_load_call (fst (Sample.run Sample.world))
  = [CallReadExcel "data/ledger.xlsx" 0; CallReadExcel "data/locked.xlsx" 0;
     CallReadExcel "data/short.xls" 0].
Proof. reflexivity. Qed.

(** *** The claims *)

(** C1. An entry whose processing raises (at the opening of the workbook,
    at the listing of its sheet names or at the load of its first sheet) does
    not stop the run: the loop body returns normally, the lines of the
    entry's block are the header, at most the sheet-name line, and one error
    line that carries the message of the exception; no line of the block is a
    size, column or preview line; the blocks of the entries that follow are
    printed after it, then the closing lines, and the exit status is 0. *)
Theorem C1_raised_error_is_caught_and_reported
    w (pre post : list string) f e :
  os_listdir w data_dir = inr (pre ++ f :: post)%list ->
  raises w f e ->
  snd (body' w (length pre) f) = inr tt
  /\ (exists shown : list string,
        (shown = [] \/ exists names, shown = [sheets_line' names])
        /\ stdout_lines (block' w (length pre) f)
           = ([top_banner; file_line (length pre) f; banner]
              ++ shown ++ [error_line e])%list)
  /\ filter is_error_line (stdout_lines (block' w (length pre) f)) = [error_line e]
  /\ filter is_report_line (stdout_lines (block' w (length pre) f)) = []
  /\ fst (run w)
     = (CallListdir data_dir
          :: blocks' w 0 pre ++ block' w (length pre) f
          ++ blocks' w (S (length pre)) post ++ closing_events)%list
  /\ exit_code (snd (run w)) = 0%Z.
Proof.
  intros Hls Hraise.
  split; [apply body_returns|].
  rewrite (script_run_split _ _ _ _ Hls). cbn [fst snd exit_code].
  destruct (block_of_raises w (length pre) f e Hraise) as [-> | [names ->]].
  - split; [exists []; split; [now left | reflexivity]|].
    repeat split; reflexivity.
  - split; [exists [sheets_line' names]; split; [right; now exists names | reflexivity]|].
    repeat split; reflexivity.
Qed.

(** The lines of the block of an entry that is opened and loaded. *)
Lemma block_lines_of_loads w i f names df :
  loads w f names df ->
  stdout_lines (block' w i f)
  = ([top_banner; file_line i f; banner; sheets_line' names;
      size_line (len df) (length (columns df)); columns_title]
     ++ map column_line' (columns df)
     ++ [preview_title; DataFrame_to_string (head 5 df);
         types_title; Series_to_string (dtypes df)])%list.
Proof.
  intros H. rewrite (block_of_loads _ _ _ _ _ H).
  rewrite !stdout_lines_app. unfold report_events.
  rewrite !stdout_lines_out, stdout_lines_app, stdout_lines_outs. reflexivity.
Qed.




(** C5. For an entry that is opened and loaded, the line after the preview
    title is the rendering of [df.head(5)], a frame with the columns of [df]
    whose rows are the first [min 5 (len df)] rows of [df] in their order;
    a frame of fewer than five rows is rendered whole. *)
Theorem C5_preview_is_first_five_rows w k f names df :
  loads w f names df ->
  (exists before after,
      stdout_lines (block' w k f)
      = (before ++ preview_title :: DataFrame_to_string (head 5 df) :: after)%list
      /\ length before = 6 + length (columns df))
  /\ len (head 5 df) = Nat.min 5 (len df)
  /\ rows (head 5 df) = firstn 5 (rows df)
  /\ (forall j, j < Nat.min 5 (len df) ->
                nth_error (rows (head 5 df)) j = nth_error (rows df) j)
  /\ (forall j, Nat.min 5 (len df) <= j -> nth_error (rows (head 5 df)) j = None)
  /\ dtypes (head 5 df) = dtypes df
  /\ (len df < 5 -> head 5 df = df).
Proof.
  intros H. rewrite (block_lines_of_loads _ _ _ _ _ H).
  split.
  { eexists (_ ++ map column_line' (columns df))%list, _. split.
    - rewrite <- app_assoc. reflexivity.
    - rewrite length_app, length_map. reflexivity. }
  unfold len, head; cbn [rows dtypes].
  split; [apply length_firstn|]. split; [reflexivity|].
  split; [|split; [|split; [reflexivity|]]].
  - intros j Hj. rewrite nth_error_firstn.
    now replace (j <? 5)%nat with true by (symmetry; apply Nat.ltb_lt; lia).
  - intros j Hj. apply nth_error_None. rewrite length_firstn. exact Hj.
  - intros Hlt. destruct df as [d r]. cbn [rows dtypes] in *. f_equal.
    apply firstn_all2. lia.
Qed.

(** C6. The entry at position [k] of the listing gets, after the listing
    call and the blocks of the entries before it, the banner of sixty [=]
    (behind a newline), the line [📄 FILE k+1: name] and the banner again,
    and only then is the entry handed to [pd.ExcelFile]; nothing is assumed
    of what the opening answers. *)
Theorem C6_header_printed_before_open w (files : list string) k f :
  os_listdir w data_dir = inr files ->
  nth_error files k = Some f ->
  exists pre post rest,
    files = (pre ++ f :: post)%list
    /\ length pre = k
    /\ fst (run w)
       = ((CallListdir data_dir :: blocks' w 0 pre)
          ++ [Out top_banner; Out (file_line k f); Out banner;
              CallExcelFile (path f)]
          ++ rest ++ blocks' w (S k) post ++ closing_events)%list
    /\ block' w k f
       = ([Out top_banner; Out (file_line k f); Out banner;
           CallExcelFile (path f)] ++ rest)%list
    /\ file_line k f = "📄 FILE " ++ str_int (k + 1) ++ ": " ++ f
    /\ top_banner = newline ++ banner
    /\ String.length banner = 60.
Proof.
  intros Hls Hk.
  destruct (nth_error_split _ _ Hk) as (pre & post & -> & Hlen).
  destruct (block_starts w k f) as [rest Hb].
  exists pre, post, rest. split; [reflexivity|]. split; [exact Hlen|].
  rewrite (script_run_split _ _ _ _ Hls), Hlen, Hb. cbn [fst].
  split; [|repeat split; reflexivity].
  unfold header_events. cbn [app]. rewrite <- !app_assoc. reflexivity.
Qed.

(** C7. When the listing of the directory is empty, the run is the listing
    call, the closing banner and the completion message: no entry is opened,
    no line is an error line, and the exit status is 0. *)
Theorem C7_empty_directory_prints_only_closing w :
  os_listdir w data_dir = inr [] ->
  run w = ([CallListdir data_dir; Out top_banner; Out "✅ Analysis Complete!"], inr tt)
  /\ stdout_lines (fst (run w)) = [top_banner; "✅ Analysis Complete!"]
  /\ filter is_error_line (stdout_lines (fst (run w))) = []
  /\ filter is_open_call (fst (run w)) = []
  /\ exit_code (snd (run w)) = 0%Z.
Proof.
  intros H. rewrite (script_run _ _ H). repeat split; reflexivity.
Qed.

(** *** Runs over the same directory *)

Lemma inspect_same w1 w2 f :
  pd_ExcelFile w1 (path f) = pd_ExcelFile w2 (path f) ->
  (forall xl, pd_ExcelFile w1 (path f) = inr xl ->
              sheet_names w1 xl = sheet_names w2 xl) ->
  pd_read_excel w1 (path f) 0 = pd_read_excel w2 (path f) 0 ->
  inspect' w1 f = inspect' w2 f.
Proof.
  intros H1 H2 H3. unfold inspect. rewrite <- H1, <- H3.
  destruct (pd_ExcelFile w1 (path f)) as [e|xl]; [reflexivity|].
  py_run. now rewrite <- (H2 xl eq_refl).
Qed.

Lemma blocks_same w1 w2 n (l : list string) :
  (forall f, In f l -> inspect' w1 f = inspect' w2 f) ->
  blocks' w1 n l = blocks' w2 n l.
Proof.
  revert n. induction l as [|f l IH]; intros n H; [reflexivity|].
  rewrite !blocks_from_cons, !block_eq.
  rewrite (H f (or_introl eq_refl)), (IH (S n)); [reflexivity|].
  intros g Hg. apply H. now right.
Qed.


(** C9. Every entry of the listing gets one block, in listing order, and
    none is left out: the run is the listing call, the blocks of the
    enumerated entries and the closing lines; the attempts to open a workbook
    are the listed names, each joined to the directory, one per entry whatever
    its kind; each block starts with the header of its entry; and the block of
    an entry that does not open ends with the error line of the exception. *)
Theorem C9_every_entry_gets_one_block w (files : list string) :
  os_listdir w data_dir = inr files ->
  fst (run w)
  = (CallListdir data_dir
       :: flat_map (fun '(i, f) => block' w i f) (enumerate files)
       ++ closing_events)%list
  /\ map snd (enumerate files) = files
  /\ filter is_open_call (fst (run w))
     = map (fun f => CallExcelFile (path f)) files
  /\ (forall k f, nth_error files k = Some f ->
        nth_error (enumerate files) k = Some (k, f)
        /\ filter is_open_call (block' w k f) = [CallExcelFile (path f)]
        /\ exists rest,
             block' w k f
             = (header_events k f ++ CallExcelFile (path f) :: rest)%list)
  /\ (forall k f e, nth_error files k = Some f ->
        pd_ExcelFile w (path f) = inl e ->
        block' w k f
        = (header_events k f ++ [CallExcelFile (path f); Out (error_line e)])%list).
Proof.
  intros H. rewrite (script_run _ _ H). cbn [fst].
  split; [reflexivity|]. split; [apply enumerate_from_snd|]. split; [|split].
  - cbn [filter is_open_call]. rewrite filter_app, blocks_open_calls.
    cbn. now rewrite app_nil_r.
  - intros k f Hk. split; [exact (enumerate_from_nth 0 k files f Hk)|].
    split; [apply block_open_calls | apply block_starts].
  - intros k f e _ He. rewrite block_eq.
    now rewrite (inspect_open_raises _ _ _ He).
Qed.

(** C10. For an entry that is opened and loaded, [pd.read_excel] is called
    once in its block, and every line after that call is computed from the
    frame [df] it returned: the size line from [len(df)] and [df.columns],
    one column line per label of [df.columns] in order, the preview from
    [df.head(5)], which has the columns of [df], and the type list from
    [df.dtypes], which has one entry per column of [df.columns], in the same
    order. *)
Theorem C10_report_is_derived_from_one_frame w k f names df :
  loads w f names df ->
  filter is_load_call (block' w k f) = [CallReadExcel (path f) 0]
  /\ block' w k f
     = (header_events k f
        ++ [CallExcelFile (path f); Out (sheets_line' names)]
        ++ CallReadExcel (path f) 0 :: report_events' df)%list
  /\ stdout_lines (report_events' df)
     = (size_line (len df) (length (columns df))
        :: columns_title
        :: map column_line' (columns df)
        ++ [preview_title; DataFrame_to_string (head 5 df);
            types_title; Series_to_string (dtypes df)])%list
  /\ columns (head 5 df) = columns df
  /\ map fst (dtypes df) = columns df
  /\ length (dtypes df) = length (columns df).
Proof.
  intros H. rewrite (block_of_loads _ _ _ _ _ H).
  split; [|split; [reflexivity|split; [|split; [reflexivity|split; [reflexivity|]]]]].
  - rewrite !filter_app, report_events_no_call by reflexivity. reflexivity.
  - unfold report_events.
    rewrite !stdout_lines_out, stdout_lines_app, stdout_lines_outs. reflexivity.
  - unfold columns. symmetry. apply length_map.
Qed.

(** *** Further properties of the script *)

(** The calls of a block other than the opening of its entry. *)
Lemma block_listdir_calls w i f : filter is_listdir_call (block' w i f) = [].
Proof.
  rewrite block_eq. unfold inspect.
  destruct (pd_ExcelFile w (path f)) as [e|xl]; [reflexivity|].
  py_run. destruct (sheet_names w xl) as [e|names]; py_run; [reflexivity|].
  destruct (pd_read_excel w (path f) 0) as [e|df]; py_run; [reflexivity|].
  rewrite report_run. cbn [fst].
  rewrite !filter_app, report_events_no_call by reflexivity. reflexivity.
Qed.

Lemma block_load_calls w i f :
  filter is_load_call (block' w i f)
  = if reaches_load w f then [CallReadExcel (path f) 0] else [].
Proof.
  rewrite block_eq. unfold inspect, reaches_load.
  destruct (pd_ExcelFile w (path f)) as [e|xl]; [reflexivity|].
  py_run. destruct (sheet_names w xl) as [e|names]; py_run; [reflexivity|].
  destruct (pd_read_excel w (path f) 0) as [e|df]; py_run; [reflexivity|].
  rewrite report_run. cbn [fst].
  rewrite !filter_app, report_events_no_call by reflexivity. reflexivity.
Qed.

Lemma blocks_listdir_calls w n (l : list string) :
  filter is_listdir_call (blocks' w n l) = [].
Proof.
  revert n. induction l as [|f l IH]; intros n; [reflexivity|].
  now rewrite blocks_from_cons, filter_app, block_listdir_calls, IH.
Qed.

Lemma blocks_load_calls w n (l : list string) :
  filter is_load_call (blocks' w n l)
  = map (fun f => CallReadExcel (path f) 0) (filter (reaches_load w) l).
Proof.
  revert n. induction l as [|f l IH]; intros n; [reflexivity|].
  rewrite blocks_from_cons, filter_app, block_load_calls, IH. cbn [filter].
  now destruct (reaches_load w f).
Qed.

(** X1. Whenever the directory can be listed, the last thing on standard
    output is the closing banner and the completion message, whatever
    happened to the entries: the text ends with a newline, sixty [=], a
    newline, the message and a newline. *)
Theorem X1_output_ends_with_completion_message w (files : list string) :
  os_listdir w data_dir = inr files ->
  exists before : list event,
    fst (run w) = (before ++ closing_events)%list
    /\ stdout_lines (fst (run w))
       = (stdout_lines before ++ [top_banner; "✅ Analysis Complete!"])%list
    /\ stdout_text (fst (run w))
       = stdout_text before
         ++ newline ++ banner ++ newline ++ "✅ Analysis Complete!" ++ newline.
Proof.
  intros H. rewrite (script_run _ _ H). cbn [fst].
  exists (CallListdir data_dir :: blocks' w 0 files).
  split; [reflexivity|].
  change (CallListdir data_dir :: blocks' w 0 files ++ closing_events)%list
    with ((CallListdir data_dir :: blocks' w 0 files) ++ closing_events)%list.
  rewrite stdout_lines_app, stdout_text_app. split; reflexivity.
Qed.

(** X2. When the workbook opens and lists its sheets but the load of its
    first sheet raises, what was printed before the exception stays: the
    block has five lines, the header, the sheet-name line and the error line,
    and both pandas calls were made, on the same path, the load on sheet 0. *)
Theorem X2_sheet_line_stays_when_load_raises w i f (xl : Workbook) names e :
  pd_ExcelFile w (path f) = inr xl ->
  sheet_names w xl = inr names ->
  pd_read_excel w (path f) 0 = inl e ->
  block' w i f
  = [Out top_banner; Out (file_line i f); Out banner;
     CallExcelFile (path f); Out (sheets_line' names);
     CallReadExcel (path f) 0; Out (error_line e)]
  /\ stdout_lines (block' w i f)
     = [top_banner; file_line i f; banner; sheets_line' names; error_line e].
Proof.
  intros H1 H2 H3. rewrite block_eq.
  rewrite (inspect_load_raises _ _ _ _ _ H1 H2 H3). split; reflexivity.
Qed.

(** X3. When the opening of the workbook or the listing of its sheets
    raises, [pd.read_excel] is not called for the entry and no sheet-name line
    is printed: the block is the header, the attempt to open, and one error
    line. *)
Theorem X3_no_load_after_failed_open w i f :
  reaches_load w f = false ->
  filter is_load_call (block' w i f) = []
  /\ exists e,
      raises w f e
      /\ block' w i f
         = [Out top_banner; Out (file_line i f); Out banner;
            CallExcelFile (path f); Out (error_line e)].
Proof.
  intros H. split; [now rewrite block_load_calls, H|].
  unfold reaches_load in H.
  destruct (pd_ExcelFile w (path f)) as [e|xl] eqn:H1.
  - exists e. split; [now apply raises_open|].
    rewrite block_eq. now rewrite (inspect_open_raises _ _ _ H1).
  - destruct (sheet_names w xl) as [e|names] eqn:H2; [|discriminate].
    exists e. split; [now apply (raises_sheet_names w f e xl)|].
    rewrite block_eq. now rewrite (inspect_sheet_names_raises _ _ _ _ H1 H2).
Qed.

(** X4. Over the whole run, [pd.read_excel] is called for exactly the
    entries whose workbook opened and listed its sheets, once each, in listing
    order, on the path that was opened and always for the sheet at index 0;
    no other sheet of a workbook is ever loaded. *)
Theorem X4_load_calls_of_the_run w (files : list string) :
  os_listdir w data_dir = inr files ->
  filter is_load_call (fst (run w))
  = map (fun f => CallReadExcel (path f) 0) (filter (reaches_load w) files)
  /\ (forall p n, In (CallReadExcel p n) (fst (run w)) ->
        n = 0 /\ In (CallExcelFile p) (fst (run w))).
Proof.
  intros H.
  assert (E : filter is_load_call (fst (run w))
              = map (fun f => CallReadExcel (path f) 0)
                    (filter (reaches_load w) files)).
  { rewrite (script_run _ _ H). cbn [fst filter is_load_call].
    rewrite filter_app, blocks_load_calls. cbn. now rewrite app_nil_r. }
  split; [exact E|].
  intros p n Hin.
  assert (Hf : In (CallReadExcel p n) (filter is_load_call (fst (run w))))
    by (apply filter_In; now split).
  rewrite E in Hf. apply in_map_iff in Hf. destruct Hf as (f & Hf & Hfl).
  injection Hf as <- <-. split; [reflexivity|].
  apply filter_In in Hfl. destruct Hfl as [Hfl _].
  assert (Ho : In (CallExcelFile (path f)) (filter is_open_call (fst (run w)))).
  { rewrite (script_run _ _ H). cbn [fst filter is_open_call].
    rewrite filter_app, blocks_open_calls. cbn. rewrite app_nil_r.
    apply in_map_iff. now exists f. }
  apply filter_In in Ho. tauto.
Qed.

(** X5. The directory is listed once, at the start, and only [data] is
    listed: an entry that is itself a directory is handed to [pd.ExcelFile]
    like any other and is never descended into. *)
Theorem X5_only_data_is_listed w :
  filter is_listdir_call (fst (run w)) = [CallListdir data_dir]
  /\ exists rest, fst (run w) = CallListdir "data" :: rest.
Proof.
  destruct (os_listdir w data_dir) as [e|files] eqn:H.
  - rewrite (script_fatal _ _ H). split; [reflexivity | now exists []].
  - rewrite (script_run _ _ H). cbn [fst filter is_listdir_call].
    rewrite filter_app, blocks_listdir_calls. split; [reflexivity|].
    eexists. reflexivity.
Qed.

(** The path handed to pandas for entry [f]. *)
Lemma path_of_entry f :
  path f = if startswith f "/" then f else "data/" ++ f.
Proof. reflexivity. Qed.

Lemma path_inj f g : path f = path g -> f = g.
Proof.
  rewrite !path_of_entry.
  destruct (startswith f "/") eqn:Ef, (startswith g "/") eqn:Eg; intros H.
  - exact H.
  - rewrite H in Ef. discriminate.
  - rewrite <- H in Eg. discriminate.
  - cbn [append] in H.
    repeat match type of H with String _ _ = String _ _ => injection H as H end.
    exact H.
Qed.

(** X6. A listed name that does not start with a slash is opened at
    [data/name]; a name that starts with one is opened as it is.  Either way
    different names give different paths, so a listing without repetition
    opens no path twice. *)
Theorem X6_entries_open_at_distinct_paths w (files : list string) :
  os_listdir w data_dir = inr files ->
  NoDup files ->
  NoDup (filter is_open_call (fst (run w)))
  /\ (forall f, In f files ->
        In (CallExcelFile (if startswith f "/" then f else "data/" ++ f))
           (fst (run w))).
Proof.
  intros H Hnd.
  assert (E : filter is_open_call (fst (run w))
              = map (fun f => CallExcelFile (path f)) files).
  { rewrite (script_run _ _ H). cbn [fst filter is_open_call].
    rewrite filter_app, blocks_open_calls. cbn. now rewrite app_nil_r. }
  split.
  - rewrite E. apply NoDup_map_NoDup_ForallPairs; [|exact Hnd].
    intros f g _ _ Hfg. apply path_inj. now injection Hfg.
  - intros f Hf. rewrite <- path_of_entry.
    assert (Hin : In (CallExcelFile (path f)) (filter is_open_call (fst (run w))))
      by (rewrite E; apply in_map_iff; now exists f).
    apply filter_In in Hin. tauto.
Qed.

(** X7. The header line of a block tells which entry it is: two header
    lines are equal only for the same position and the same name. *)
Theorem X7_header_line_identifies_entry i f k (g : string) :
  file_line i f = file_line k g <-> i = k /\ f = g.
Proof.
  split; [|now intros [-> ->]].
  unfold file_line. intros H. cbn [append] in H.
  repeat match type of H with String _ _ = String _ _ => injection H as H end.
  apply digits_split in H; try apply str_int_digits; [|reflexivity].
  destruct H as [Hn Hf]. apply str_int_inj in Hn.
  split; [lia | now injection Hf].
Qed.

(** X8. A first sheet with a header row and no data row is not an error:
    its block is a full report, with [0 rows] on the size line, every column
    listed, and the frame itself, which [head(5)] leaves as it is, as the
    preview. *)
Theorem X8_sheet_without_data_rows_is_reported w i f names df :
  loads w f names df ->
  rows df = [] ->
  stdout_lines (block' w i f)
  = ([top_banner; file_line i f; banner; sheets_line' names;
      size_line 0 (length (columns df)); columns_title]
     ++ map column_line' (columns df)
     ++ [preview_title; DataFrame_to_string df;
         types_title; Series_to_string (dtypes df)])%list.
Proof.
  intros H Hrows. rewrite (block_lines_of_loads _ _ _ _ _ H).
  destruct df as [d r]. cbn [rows] in Hrows. subst r. reflexivity.
Qed.

Lemma raised_block_lines w i f e :
  raises w f e ->
  filter is_error_line (stdout_lines (block' w i f)) = [error_line e]
  /\ filter is_report_line (stdout_lines (block' w i f)) = [].
Proof.
  intros H. destruct (block_of_raises w i f e H) as [-> | [names ->]];
    split; reflexivity.
Qed.

(** X9. In a directory where the processing of every entry raises, the
    output has as many error lines as the listing has entries and no line of
    a frame report, and the run still ends with status 0. *)
Theorem X9_one_error_line_per_entry_when_all_raise w (files : list string) :
  os_listdir w data_dir = inr files ->
  (forall f, In f files -> exists e, raises w f e) ->
  length (filter is_error_line (stdout_lines (fst (run w)))) = length files
  /\ filter is_report_line (stdout_lines (fst (run w))) = []
  /\ exit_code (snd (run w)) = 0%Z.
Proof.
  intros H Hall. rewrite (script_run _ _ H). cbn [fst snd exit_code].
  change (stdout_lines (CallListdir data_dir :: blocks' w 0 files ++ closing_events))
    with (stdout_lines (blocks' w 0 files ++ closing_events)).
  rewrite stdout_lines_app, !filter_app.
  assert (B : forall n,
             length (filter is_error_line (stdout_lines (blocks' w n files)))
             = length files
             /\ filter is_report_line (stdout_lines (blocks' w n files)) = []).
  { clear H. induction files as [|f l IH]; intros n; [now split|].
    destruct (Hall f (or_introl eq_refl)) as [e He].
    destruct (raised_block_lines w n f e He) as [E1 E2].
    destruct (IH (fun g Hg => Hall g (or_intror Hg)) (S n)) as [I1 I2].
    rewrite blocks_from_cons, stdout_lines_app, !filter_app, E1, E2, I2.
    split; [|reflexivity]. rewrite length_app, I1. reflexivity. }
  destruct (B 0) as [B1 B2]. rewrite length_app, B1, B2.
  repeat split; try reflexivity. cbn. lia.
Qed.

Lemma report_events_last df :
  exists t, report_events' df = (t ++ [Out (Series_to_string (dtypes df))])%list.
Proof.
  unfold report_events.
  exists (Out (size_line (len df) (length (columns df)))
          :: Out columns_title
          :: map (fun col => Out (column_line' col)) (columns df)
          ++ [Out preview_title; Out (DataFrame_to_string (head 5 df));
              Out types_title])%list.
  rewrite <- !app_comm_cons, <- app_assoc. reflexivity.
Qed.

(** X10. Every block has one of two outcomes, never both: processing the
    entry raised, and the block ends with the error line of that exception;
    or the entry was opened and loaded, and the block ends with the type list
    of the loaded frame. *)
Theorem X10_every_block_has_one_outcome w i f :
  ((exists e,
      raises w f e
      /\ exists t, block' w i f = (t ++ [Out (error_line e)])%list)
   \/ (exists names df,
         loads w f names df
         /\ exists t,
             block' w i f = (t ++ [Out (Series_to_string (dtypes df))])%list))
  /\ (forall e names df, raises w f e -> loads w f names df -> False).
Proof.
  split.
  - destruct (pd_ExcelFile w (path f)) as [e|xl] eqn:H1.
    { left. exists e. pose proof (raises_open w f e H1) as R. split; [exact R|].
      rewrite block_eq, (inspect_open_raises _ _ _ H1).
      now exists (header_events i f ++ [CallExcelFile (path f)])%list. }
    destruct (sheet_names w xl) as [e|names] eqn:H2.
    { left. exists e. pose proof (raises_sheet_names w f e xl H1 H2) as R.
      split; [exact R|].
      rewrite block_eq, (inspect_sheet_names_raises _ _ _ _ H1 H2).
      now exists (header_events i f ++ [CallExcelFile (path f)])%list. }
    destruct (pd_read_excel w (path f) 0) as [e|df] eqn:H3.
    { left. exists e. pose proof (raises_load w f e xl names H1 H2 H3) as R.
      split; [exact R|].
      rewrite block_eq, (inspect_load_raises _ _ _ _ _ H1 H2 H3).
      exists (header_events i f
              ++ [CallExcelFile (path f); Out (sheets_line' names);
                  CallReadExcel (path f) 0])%list.
      reflexivity. }
    right. exists names, df.
    assert (L : loads w f names df) by (exists xl; auto).
    split; [exact L|]. rewrite (block_of_loads _ _ _ _ _ L).
    destruct (report_events_last df) as [t Ht]. rewrite Ht.
    exists (header_events i f
            ++ [CallExcelFile (path f); Out (sheets_line' names);
                CallReadExcel (path f) 0] ++ t)%list.
    now rewrite !app_assoc.
  - intros e names df R (xl & L1 & L2 & L3).
    destruct R as [R1 | xl' R1 R2 | xl' names' R1 R2 R3]; congruence.
Qed.

(** X11. Entries that come after the others in the listing only add
    blocks: when a second directory lists the entries of a first one, with the
    same answers, followed by further entries, its run is the run of the first
    up to the closing lines, then the blocks of the further entries, then the
    closing lines. *)
Theorem X11_later_entries_only_append_blocks
    (w1 w2 : @World Label Dtype Cell Workbook) (pre post : list string) :
  os_listdir w1 data_dir = inr pre ->
  os_listdir w2 data_dir = inr (pre ++ post)%list ->
  (forall f, In f pre -> same_entry w1 w2 f) ->
  exists common : list event,
    fst (run w1) = (common ++ closing_events)%list
    /\ fst (run w2)
       = (common ++ blocks' w2 (length pre) post ++ closing_events)%list
    /\ stdout_text (fst (run w2))
       = stdout_text common
         ++ stdout_text (blocks' w2 (length pre) post)
         ++ stdout_text closing_events.
Proof.
  intros H1 H2 Hsame.
  exists (CallListdir data_dir :: blocks' w1 0 pre).
  rewrite (script_run _ _ H1), (script_run _ _ H2), blocks_from_app.
  cbn [fst Nat.add].
  rewrite <- (blocks_same w1 w2 0 pre)
    by (intros f Hf; destruct (Hsame f Hf) as (A & B & C); now apply inspect_same).
  split; [reflexivity|].
  assert (E : (CallListdir data_dir
                 :: (blocks' w1 0 pre ++ blocks' w2 (length pre) post)
                 ++ closing_events)%list
              = ((CallListdir data_dir :: blocks' w1 0 pre)
                 ++ blocks' w2 (length pre) post ++ closing_events)%list)
    by (cbn [app]; now rewrite <- app_assoc).
  rewrite E. split; [reflexivity|]. now rewrite !stdout_text_app.
Qed.

End Theory.

(** ** The claims on the sample worlds *)

Section Witnesses.

Import Sample.

(** [locked.xlsx] opens and lists its sheets, and its load raises. *)
Lemma C1_witness :
  raises world "locked.xlsx" (Exc "Worksheet index 0 is invalid")
  /\ stdout_lines (Sample.block world 3 "locked.xlsx")
     = [top_banner; "📄 FILE 4: locked.xlsx"; banner;
        "📊 Sheets: ['Sheet1']"; "❌ Error: Worksheet index 0 is invalid"]
  /\ filter is_error_line (stdout_lines (Sample.block world 3 "locked.xlsx"))
     = ["❌ Error: Worksheet index 0 is invalid"]
  /\ exit_code (snd (run world)) = 0%Z.
Proof.
  assert (R : raises world "locked.xlsx" (Exc "Worksheet index 0 is invalid"))
    by (apply (raises_load world _ _ (Some ["Sheet1"]) ["Sheet1"]); reflexivity).
  split; [exact R|].
  destruct (C1_raised_error_is_caught_and_reported
              format_label repr_str DataFrame_to_string Series_to_string
              world ["ledger.xlsx"; "notes.txt"; "nosheets.xlsx"] ["short.xls"]
              "locked.xlsx" _ eq_refl R) as (_ & _ & H3 & _ & _ & H6).
  split; [reflexivity|]. split; [exact H3 | exact H6].
Defined.

Lemma ledger_loads : loads world "ledger.xlsx" ["Sheet1"; "Sheet2"] ledger.
Proof. exists (Some ["Sheet1"; "Sheet2"]). repeat split; reflexivity. Defined.

Lemma short_loads : loads world "short.xls" ["Data"] short.
Proof. exists (Some ["Data"]). repeat split; reflexivity. Defined.




Lemma C5_witness :
  loads world "short.xls" ["Data"] short
  /\ len (head 5 short) = 2
  /\ rows (head 5 short) = [["0.5"]; ["1.5"]]
  /\ head 5 short = short.
Proof.
  split; [exact short_loads|].
  destruct (C5_preview_is_first_five_rows
              format_label repr_str DataFrame_to_string Series_to_string
              world 4 "short.xls" _ _ short_loads) as (_ & H2 & H3 & _ & _ & _ & H7).
  split; [exact H2|]. split; [exact H3|].
  apply H7. unfold len. cbn. lia.
Defined.

Lemma C6_witness :
  nth_error listing 1 = Some "notes.txt"
  /\ exists rest,
      Sample.block world 1 "notes.txt"
      = ([Out top_banner; Out "📄 FILE 2: notes.txt"; Out banner;
          CallExcelFile "data/notes.txt"] ++ rest)%list.
Proof.
  split; [reflexivity|].
  destruct (C6_header_printed_before_open
              format_label repr_str DataFrame_to_string Series_to_string
              world listing 1 "notes.txt" eq_refl eq_refl)
    as (pre & post & rest & _ & _ & _ & Hb & _).
  exists rest. exact Hb.
Defined.

Lemma C7_witness :
  os_listdir empty_world data_dir = inr []
  /\ stdout_lines (fst (run empty_world)) = [top_banner; "✅ Analysis Complete!"]
  /\ exit_code (snd (run empty_world)) = 0%Z.
Proof.
  split; [reflexivity|].
  destruct (C7_empty_directory_prints_only_closing
              format_label repr_str DataFrame_to_string Series_to_string
              empty_world eq_refl) as (_ & H2 & _ & _ & H5).
  split; [exact H2 | exact H5].
Defined.



Lemma C9_witness :
  os_listdir world data_dir = inr listing
  /\ filter is_open_call (fst (run world))
     = [CallExcelFile "data/ledger.xlsx"; CallExcelFile "data/notes.txt";
        CallExcelFile "data/nosheets.xlsx"; CallExcelFile "data/locked.xlsx";
        CallExcelFile "data/short.xls"]
  /\ Sample.block world 1 "notes.txt"
     = (header_events 1 "notes.txt"
        ++ [CallExcelFile "data/notes.txt";
            Out "❌ Error: Excel file format cannot be determined"])%list.
Proof.
  split; [reflexivity|].
  destruct (C9_every_entry_gets_one_block
              format_label repr_str DataFrame_to_string Series_to_string
              world listing eq_refl) as (_ & _ & H3 & _ & H5).
  split; [exact H3|].
  exact (H5 1 "notes.txt" _ eq_refl eq_refl).
Defined.

Lemma C10_witness :
  loads world "ledger.xlsx" ["Sheet1"; "Sheet2"] ledger
  /\ filter is_load_call (Sample.block world 0 "ledger.xlsx")
     = [CallReadExcel "data/ledger.xlsx" 0]
  /\ columns (head 5 ledger) = ["id"; "name"]
  /\ map fst (dtypes ledger) = ["id"; "name"].
Proof.
  split; [exact ledger_loads|].
  destruct (C10_report_is_derived_from_one_frame
              format_label repr_str DataFrame_to_string Series_to_string
              world 0 "ledger.xlsx" _ _ ledger_loads) as (H1 & _ & _ & H4 & H5 & _).
  split; [exact H1|]. split; [exact H4 | exact H5].
Defined.

(** *** The further properties on the sample worlds *)

Lemma X1_witness :
  os_listdir junk_world data_dir = inr ["notes.txt"; "archive"; "photo.png"]
  /\ exists before,
      stdout_lines (fst (run junk_world))
      = (stdout_lines before ++ [top_banner; "✅ Analysis Complete!"])%list.
Proof.
  split; [reflexivity|].
  destruct (X1_output_ends_with_completion_message
              format_label repr_str DataFrame_to_string Series_to_string
              junk_world _ eq_refl) as (before & _ & H2 & _).
  exists before. exact H2.
Defined.

Lemma X2_witness :
  pd_read_excel world "data/locked.xlsx" 0 = inl (Exc "Worksheet index 0 is invalid")
  /\ stdout_lines (Sample.block world 3 "locked.xlsx")
     = [top_banner; "📄 FILE 4: locked.xlsx"; banner; "📊 Sheets: ['Sheet1']";
        "❌ Error: Worksheet index 0 is invalid"].
Proof.
  split; [reflexivity|].
  exact (proj2 (X2_sheet_line_stays_when_load_raises
                  format_label repr_str DataFrame_to_string Series_to_string
                  world 3 "locked.xlsx" (Some ["Sheet1"]) ["Sheet1"] _
                  eq_refl eq_refl eq_refl)).
Defined.

Lemma X3_witness :
  reaches_load world "nosheets.xlsx" = false
  /\ filter is_load_call (Sample.block world 2 "nosheets.xlsx") = [].
Proof.
  split; [reflexivity|].
  exact (proj1 (X3_no_load_after_failed_open
                  format_label repr_str DataFrame_to_string Series_to_string
                  world 2 "nosheets.xlsx" eq_refl)).
Defined.

Lemma X4_witness :
  os_listdir world data_dir = inr listing
  /\ filter is_load_call (fst (run world))
     = [CallReadExcel "data/ledger.xlsx" 0; CallReadExcel "data/locked.xlsx" 0;
        CallReadExcel "data/short.xls" 0].
Proof.
  split; [reflexivity|].
  exact (proj1 (X4_load_calls_of_the_run
                  format_label repr_str DataFrame_to_string Series_to_string
                  world listing eq_refl)).
Defined.

Lemma listing_NoDup : NoDup listing.
Proof.
  unfold listing.
  repeat (constructor; [cbn; intuition discriminate|]). constructor.
Defined.

Lemma X6_witness :
  NoDup listing
  /\ NoDup (filter is_open_call (fst (run world)))
  /\ In (CallExcelFile "data/short.xls") (fst (run world)).
Proof.
  split; [exact listing_NoDup|].
  destruct (X6_entries_open_at_distinct_paths
              format_label repr_str DataFrame_to_string Series_to_string
              world listing eq_refl listing_NoDup) as [H1 H2].
  split; [exact H1|].
  apply (H2 "short.xls"). cbn. tauto.
Defined.

Lemma X7_witness :
  file_line 0 "ledger.xlsx" <> file_line 1 "ledger.xlsx"
  /\ file_line 0 "ledger.xlsx" <> file_line 0 "ledger.xls".
Proof.
  split; intros H; apply X7_header_line_identifies_entry in H;
    destruct H; discriminate.
Defined.

Lemma blank_loads : loads blank_world "blank.xlsx" ["Sheet1"] blank.
Proof. exists (Some ["Sheet1"]). repeat split; reflexivity. Defined.

Lemma X8_witness :
  loads blank_world "blank.xlsx" ["Sheet1"] blank
  /\ stdout_lines (Sample.block blank_world 0 "blank.xlsx")
     = [top_banner; "📄 FILE 1: blank.xlsx"; banner; "📊 Sheets: ['Sheet1']";
        "📏 Size: 0 rows x 2 columns"; columns_title;
        "   - date"; "   - amount";
        preview_title; "date  amount"; types_title;
        "date    object" ++ newline ++ "amount    object"].
Proof.
  split; [exact blank_loads|].
  exact (X8_sheet_without_data_rows_is_reported
           format_label repr_str DataFrame_to_string Series_to_string
           blank_world 0 "blank.xlsx" _ _ blank_loads eq_refl).
Defined.

Lemma junk_all_raise :
  forall f, In f ["notes.txt"; "archive"; "photo.png"] ->
            exists e, raises junk_world f e.
Proof.
  intros f [<- | [<- | [<- | []]]]; eexists; apply raises_open; reflexivity.
Defined.

Lemma X9_witness :
  length (filter is_error_line (stdout_lines (fst (run junk_world)))) = 3
  /\ exit_code (snd (run junk_world)) = 0%Z.
Proof.
  destruct (X9_one_error_line_per_entry_when_all_raise
              format_label repr_str DataFrame_to_string Series_to_string
              junk_world _ eq_refl junk_all_raise) as (H1 & _ & H3).
  split; [exact H1 | exact H3].
Defined.

Lemma X11_witness :
  exists common,
    fst (run early_world) = (common ++ closing_events)%list
    /\ fst (run world)
       = (common
          ++ blocks_from format_label repr_str DataFrame_to_string
               Series_to_string world 2
               ["nosheets.xlsx"; "locked.xlsx"; "short.xls"]
          ++ closing_events)%list.
Proof.
  destruct (X11_later_entries_only_append_blocks
              format_label repr_str DataFrame_to_string Series_to_string
              early_world world ["ledger.xlsx"; "notes.txt"]
              ["nosheets.xlsx"; "locked.xlsx"; "short.xls"] eq_refl eq_refl)
    as (common & H1 & H2 & _).
  - intros f _. repeat split; reflexivity.
  - exists common. split; [exact H1 | exact H2].
Defined.

End Witnesses.
